(** * africa-monitoring: the request router of africa-server.js

    A shallow embedding of the HTTP handler passed to [http.createServer] in
    africa-server.js, with the parts of Node it calls ([res.setHeader],
    [res.writeHead], [res.end], [fs.readFile], [path.join],
    [JSON.stringify], [console.log]) modelled as operations of a small
    state-and-exception monad over the process's world and the response
    object of the request being handled. With it come the server's port and
    listen callback, the announcements of the start scripts, and
    update_hourly.sh as a function on the files, the data generator being
    given. *)

From Stdlib Require Import ZArith Ascii String List Bool.
From Stdlib Require Import Strings.Byte.
From stdpp Require Import base option gmap strings list pretty.

Set Warnings "-register-all".

Local Open Scope Z_scope.
Local Open Scope string_scope.

(** ** Strings and buffers *)

(** A [Buffer] is a sequence of bytes; file contents and response bodies are
    buffers. *)
Abbreviation Buffer := (list byte).

(** [Buffer.from(s)] for a string literal of the program: its bytes. *)
Definition Buffer_from (s : string) : Buffer := list_byte_of_string s.

(** [a === b] on strings. *)
Definition str_eq (a b : string) : bool := String.eqb a b.
Infix "===" := str_eq (at level 70, no associativity).

(** [String.prototype.toLowerCase] on the ASCII range, which is all that
    header names use. *)
Definition lower_ascii (c : ascii) : ascii :=
  let n := nat_of_ascii c in
  if (Nat.leb 65 n && Nat.leb n 90)%bool then ascii_of_nat (n + 32) else c.

Fixpoint toLowerCase (s : string) : string :=
  match s with
  | EmptyString => EmptyString
  | String c s' => String (lower_ascii c) (toLowerCase s')
  end.

(** The double quote and the backslash, as one-character strings. *)
Definition dquote : string := String (ascii_of_nat 34) EmptyString.
Definition backslash : string := String (ascii_of_nat 92) EmptyString.

(** ** JSON.stringify *)

(** The JSON values the program builds: strings and objects with string
    keys, in insertion order. *)
Inductive json : Type :=
  | JString (s : string)
  | JObject (fields : list (string * json)).

Definition hex_digit (n : nat) : ascii :=
  ascii_of_nat (if Nat.ltb n 10 then 48 + n else 87 + n).

(** The escape of one character inside a JSON string, as [JSON.stringify]
    quotes it. *)
Definition json_escape_char (c : ascii) : string :=
  let n := nat_of_ascii c in
  if Nat.eqb n 34 then backslash +:+ dquote
  else if Nat.eqb n 92 then backslash +:+ backslash
  else if Nat.eqb n 8 then backslash +:+ "b"
  else if Nat.eqb n 12 then backslash +:+ "f"
  else if Nat.eqb n 10 then backslash +:+ "n"
  else if Nat.eqb n 13 then backslash +:+ "r"
  else if Nat.eqb n 9 then backslash +:+ "t"
  else if Nat.ltb n 32 then
    backslash +:+ "u00" +:+
    String (hex_digit (Nat.div n 16)) (String (hex_digit (Nat.modulo n 16)) EmptyString)
  else String c EmptyString.

Fixpoint json_escape (s : string) : string :=
  match s with
  | EmptyString => EmptyString
  | String c s' => json_escape_char c +:+ json_escape s'
  end.

Definition json_quote (s : string) : string := dquote +:+ json_escape s +:+ dquote.

Fixpoint JSON_stringify (v : json) : string :=
  match v with
  | JString s => json_quote s
  | JObject fields =>
      let fix members (l : list (string * json)) : string :=
        match l with
        | [] => ""
        | (k, x) :: l' =>
            json_quote k +:+ ":" +:+ JSON_stringify x +:+
            match l' with [] => "" | _ :: _ => "," +:+ members l' end
        end in
      "{" +:+ members fields +:+ "}"
  end.


(** ** The world of the process and the response object *)

(** What a path of the file system names: a regular file with its bytes and
    whether the process may read it, or a directory. *)
Inductive inode : Type :=
  | File (content : Buffer) (readable : bool)
  | Dir.

(** The errors [fs.readFile] reports. *)
Inductive errno : Type := ENOENT | EACCES | EISDIR.

(** The exceptions the response object throws. *)
Inductive exn : Type :=
  | ERR_HTTP_HEADERS_SENT
  | ERR_HTTP_INVALID_STATUS_CODE.

(** [http.ServerResponse]: the status code, the headers in the order they
    were first set (name as given, value), whether the head has been written,
    the data handed to the response so far and whether [end] has been
    called. This is the response as the handler makes it; what the transport
    below does with it (framing, leaving the body out of the answer to a
    HEAD request) is not part of it. *)
Record ServerResponse : Type := mkResponse {
  statusCode : Z;
  headers : list (string * string);
  headersSent : bool;
  body : Buffer;
  finished : bool
}.

(** The response object a request handler is given. *)
Definition new_response : ServerResponse :=
  {| statusCode := 200; headers := []; headersSent := false;
     body := []; finished := false |}.

(** [http.IncomingMessage]: the fields the handler looks at. *)
Record IncomingMessage : Type := mkRequest {
  method : string;
  url : string
}.

(** The world outside the handler: the file system, the wall clock (as the
    text [new Date().toISOString()] gives), the lines written to the console
    and the paths handed to [fs.readFile], both oldest first. *)
Record World : Type := mkWorld {
  files : gmap string inode;
  clock : string;
  console : list string;
  reads : list string
}.

(** The state a handler runs in: the world and its response object. *)
Record Ctx : Type := mkCtx {
  world : World;
  res : ServerResponse
}.

Definition set_world (f : World -> World) (c : Ctx) : Ctx :=
  {| world := f (world c); res := res c |}.

Definition set_res (f : ServerResponse -> ServerResponse) (c : Ctx) : Ctx :=
  {| world := world c; res := f (res c) |}.

(** ** A state and exception monad *)

Inductive outcome (A : Type) : Type :=
  | Ok (a : A)
  | Throw (e : exn).
Arguments Ok {A} a.
Arguments Throw {A} e.

Definition M (A : Type) : Type := Ctx -> outcome A * Ctx.

#[global] Instance M_ret : MRet M := fun A a c => (Ok a, c).

#[global] Instance M_bind : MBind M := fun A B f m c =>
  match m c with
  | (Ok a, c') => f a c'
  | (Throw e, c') => (Throw e, c')
  end.

Definition throw {A : Type} (e : exn) : M A := fun c => (Throw e, c).
Definition get_ctx : M Ctx := fun c => (Ok c, c).
Definition modify (f : Ctx -> Ctx) : M unit := fun c => (Ok tt, f c).

(** ** The parts of Node the handler calls *)

(** [console.log(line)]. *)
Definition console_log (line : string) : M unit :=
  modify (set_world (fun w =>
    {| files := files w; clock := clock w;
       console := console w ++ [line]; reads := reads w |})).

(** [new Date().toISOString()]. *)
Definition Date_now_toISOString : M string :=
  c ← get_ctx; mret (clock (world c)).

(** Header names are compared without regard to case; a header set again
    keeps its place and takes the new spelling and value. *)
Fixpoint store_header (name value : string) (hs : list (string * string))
  : list (string * string) :=
  match hs with
  | [] => [(name, value)]
  | (n, v) :: hs' =>
      if toLowerCase n === toLowerCase name then (name, value) :: hs'
      else (n, v) :: store_header name value hs'
  end.

(** [res.getHeader(name)], also used to read a finished response. *)
Fixpoint getHeader (name : string) (hs : list (string * string)) : option string :=
  match hs with
  | [] => None
  | (n, v) :: hs' =>
      if toLowerCase n === toLowerCase name then Some v else getHeader name hs'
  end.

Definition with_headers (hs : list (string * string)) (r : ServerResponse)
  : ServerResponse :=
  {| statusCode := statusCode r; headers := hs; headersSent := headersSent r;
     body := body r; finished := finished r |}.

(** [res.setHeader(name, value)]. *)
Definition setHeader (name value : string) : M unit :=
  c ← get_ctx;
  if headersSent (res c) then throw ERR_HTTP_HEADERS_SENT
  else modify (set_res (fun r => with_headers (store_header name value (headers r)) r)).

(** [res.writeHead(status, hdrs)]: the headers given are stored over those
    set before, and the head is written. [res.writeHead(status)] is
    [writeHead status []]. *)
Definition writeHead (status : Z) (hdrs : list (string * string)) : M unit :=
  c ← get_ctx;
  if headersSent (res c) then throw ERR_HTTP_HEADERS_SENT
  else if ((status <? 100)%Z || (999 <? status)%Z)%bool then
    throw ERR_HTTP_INVALID_STATUS_CODE
  else modify (set_res (fun r =>
    {| statusCode := status;
       headers := fold_left (fun hs nv => store_header (fst nv) (snd nv) hs)
                            hdrs (headers r);
       headersSent := true; body := body r; finished := finished r |})).

(** [res.end(data)]: writes the head if it was not yet written, then the
    data, and finishes the response; on a finished response it does nothing.
    [res.end()] is [end_ []]. *)
Definition end_ (data : Buffer) : M unit :=
  modify (set_res (fun r =>
    if finished r then r
    else {| statusCode := statusCode r; headers := headers r;
            headersSent := true; body := body r ++ data; finished := true |})).

(** What reading the whole file at a path gives: its bytes, or the error for
    a missing file, a file the process may not read, or a directory. *)
Definition fs_read (fs : gmap string inode) (p : string) : errno + Buffer :=
  match fs !! p with
  | Some (File data true) => inr data
  | Some (File _ false) => inl EACCES
  | Some Dir => inl EISDIR
  | None => inl ENOENT
  end.

(** [fs.readFile(path, callback)]: the callback gets the error or the bytes
    of the file (the empty buffer stands for the [undefined] passed with an
    error). The callback is run at once, on the files as they are while the
    request is handled. *)
Definition readFile (p : string) (callback : option errno -> Buffer -> M unit)
  : M unit :=
  modify (set_world (fun w =>
    {| files := files w; clock := clock w;
       console := console w; reads := reads w ++ [p] |}));;
  c ← get_ctx;
  match fs_read (files (world c)) p with
  | inr data => callback None data
  | inl e => callback (Some e) []
  end.

(** Whether a string ends with a slash. *)
Fixpoint ends_with_slash (s : string) : bool :=
  match s with
  | EmptyString => false
  | String c EmptyString => Ascii.eqb c "/"
  | String _ s' => ends_with_slash s'
  end.

(** [path.join(dir, name)] for a normalised absolute directory and a plain
    file name. *)
Definition path_join (dir name : string) : string :=
  if ends_with_slash dir then dir +:+ name else dir +:+ "/" +:+ name.

(** ** africa-server.js *)

Section AfricaServer.

(** [__dirname]: the directory the script is in. *)
Variable dirname : string.

Definition DATA_DIR : string := dirname.

(** The request listener given to [http.createServer]. *)
Definition handler (req : IncomingMessage) : M unit :=
  now ← Date_now_toISOString;
  console_log (now +:+ " - " +:+ method req +:+ " " +:+ url req);;
  (* CORS headers *)
  setHeader "Access-Control-Allow-Origin" "*";;
  setHeader "Access-Control-Allow-Methods" "GET, OPTIONS";;
  setHeader "Access-Control-Allow-Headers" "Content-Type";;
  if method req === "OPTIONS" then
    writeHead 200 [];;
    end_ []
  else
  (* Route handling *)
  if (url req === "/") || (url req === "/africa.html") then
    let filePath := path_join DATA_DIR "africa.html" in
    readFile filePath (fun err data =>
      match err with
      | Some _ =>
          writeHead 404 [("Content-Type", "text/plain")];;
          end_ (Buffer_from "404 Not Found")
      | None =>
          writeHead 200 [("Content-Type", "text/html; charset=utf-8")];;
          end_ data
      end)
  else if url req === "/africa_monitoring.json" then
    let filePath := path_join DATA_DIR "africa_monitoring.json" in
    readFile filePath (fun err data =>
      match err with
      | Some _ =>
          writeHead 404 [("Content-Type", "application/json")];;
          end_ (Buffer_from
                  (JSON_stringify (JObject [("error", JString "Data not found")])))
      | None =>
          writeHead 200 [("Content-Type", "application/json; charset=utf-8")];;
          end_ data
      end)
  else
    writeHead 404 [("Content-Type", "text/plain")];;
    end_ (Buffer_from "404 Not Found").

(** One request, handled in world [w] with a new response object. *)
Definition handle (w : World) (req : IncomingMessage) : outcome unit * Ctx :=
  handler req {| world := w; res := new_response |}.

(** The response object as the handler leaves it. *)
Definition respond (w : World) (req : IncomingMessage) : ServerResponse :=
  res (snd (handle w req)).

(** The paths of the two files the server reads. *)
Definition html_path : string := path_join DATA_DIR "africa.html".
Definition json_path : string := path_join DATA_DIR "africa_monitoring.json".

(** ** The server over time *)

(** What happens to the running process: a request comes in, or the
    world around it changes (update_hourly.sh copies a new data file, a file
    is removed, time passes). *)
Inductive event : Type :=
  | Incoming (req : IncomingMessage)
  | FsWrite (p : string) (i : inode)
  | FsUnlink (p : string)
  | ClockSet (t : string).

(** The running server: its world, the responses it has sent (oldest first)
    and the exception that ended it, if one did. The program keeps no
    variable of its own between requests besides the constants. *)
Record Server : Type := mkServer {
  sworld : World;
  responses : list ServerResponse;
  crashed : option exn
}.

Definition boot (w : World) : Server :=
  {| sworld := w; responses := []; crashed := None |}.

Definition with_files (f : gmap string inode -> gmap string inode) (w : World)
  : World :=
  {| files := f (files w); clock := clock w;
     console := console w; reads := reads w |}.

Definition step (s : Server) (e : event) : Server :=
  match crashed s with
  | Some _ => s
  | None =>
      match e with
      | Incoming req =>
          match handle (sworld s) req with
          | (Ok _, c) =>
              {| sworld := world c; responses := responses s ++ [res c];
                 crashed := None |}
          | (Throw x, c) =>
              {| sworld := world c; responses := responses s;
                 crashed := Some x |}
          end
      | FsWrite p i =>
          {| sworld := with_files (insert p i) (sworld s);
             responses := responses s; crashed := None |}
      | FsUnlink p =>
          {| sworld := with_files (delete p) (sworld s);
             responses := responses s; crashed := None |}
      | ClockSet t =>
          {| sworld := {| files := files (sworld s); clock := t;
                          console := console (sworld s);
                          reads := reads (sworld s) |};
             responses := responses s; crashed := None |}
      end
  end.

Definition run (s : Server) (evs : list event) : Server := fold_left step evs s.

End AfricaServer.

(** ** What a run of the handler leaves behind *)

(** The world after the request line has been logged. *)
Definition logged (w : World) (req : IncomingMessage) : World :=
  {| files := files w; clock := clock w;
     console := console w ++ [clock w +:+ " - " +:+ method req +:+ " " +:+ url req];
     reads := reads w |}.

(** The world after one more path has been handed to [fs.readFile]. *)
Definition noted (p : string) (w : World) : World :=
  {| files := files w; clock := clock w;
     console := console w; reads := reads w ++ [p] |}.

(** The three headers set at the top of the handler. *)
Definition cors : list (string * string) :=
  [("Access-Control-Allow-Origin", "*");
   ("Access-Control-Allow-Methods", "GET, OPTIONS");
   ("Access-Control-Allow-Headers", "Content-Type")].

(** A finished response with the three headers, then [extra]. *)
Definition reply (status : Z) (extra : list (string * string)) (b : Buffer)
  : ServerResponse :=
  {| statusCode := status; headers := cors ++ extra; headersSent := true;
     body := b; finished := true |}.

(** A response carries the CORS headers when reading the three names gives
    the three values. *)
Definition cors_headers_set (r : ServerResponse) : Prop :=
  getHeader "Access-Control-Allow-Origin" (headers r) = Some "*" /\
  getHeader "Access-Control-Allow-Methods" (headers r) = Some "GET, OPTIONS" /\
  getHeader "Access-Control-Allow-Headers" (headers r) = Some "Content-Type".

(** The fallback answer: 404, text/plain, [404 Not Found]. *)
Definition not_found : ServerResponse :=
  reply 404 [("Content-Type", "text/plain")] (Buffer_from "404 Not Found").

(** The URLs the handler has a route for. *)
Definition routed (u : string) : bool :=
  (u === "/") || (u === "/africa.html") || (u === "/africa_monitoring.json").

(** Whether a URL has a query part. *)
Fixpoint has_query (u : string) : bool :=
  match u with
  | EmptyString => false
  | String c u' => Ascii.eqb c "?" || has_query u'
  end.

(** Whether a URL is a routed URL followed by more characters, without
    being a routed URL itself. *)
Definition has_trailing (u : string) : bool :=
  negb (routed u) &&
  (String.prefix "/" u || String.prefix "/africa.html" u
   || String.prefix "/africa_monitoring.json" u).

(** The text of the JSON error body, character by character. *)
Definition error_body_text : string :=
  "{" +:+ dquote +:+ "error" +:+ dquote +:+ ":" +:+
  dquote +:+ "Data not found" +:+ dquote +:+ "}".

(** ** Sample worlds *)

(** A deployment under /app with both files in place. *)
Definition full_files : gmap string inode :=
  <["/app/africa.html" := File (Buffer_from "<h1>Africa</h1>") true]>
    (<["/app/africa_monitoring.json" := File (Buffer_from "{}") true]> ∅).

(** The same deployment before the first data update, the page made
    unreadable. *)
Definition bare_files : gmap string inode :=
  <["/app/africa.html" := File (Buffer_from "<h1>Africa</h1>") false]> ∅.

Definition world_of (fs : gmap string inode) : World :=
  {| files := fs; clock := "2025-01-01T00:00:00.000Z"; console := []; reads := [] |}.

(** Two histories that end with the same two files in place: one on the
    full deployment, with requests and a change of the clock, and one on
    the bare deployment, where both files are then written. *)
Definition busy_history : list event :=
  [Incoming (mkRequest "GET" "/"); ClockSet "2025-01-01T01:00:00.000Z";
   Incoming (mkRequest "POST" "/africa_monitoring.json")].

Definition update_history : list event :=
  [FsWrite "/app/africa.html" (File (Buffer_from "<h1>Africa</h1>") true);
   FsWrite "/app/africa_monitoring.json" (File (Buffer_from "{}") true)].

(** ** Histories of the server *)

(** Whether an event is a request. *)
Definition is_incoming (e : event) : bool :=
  match e with
  | Incoming _ => true
  | _ => false
  end.

(** The lines the handler's first statement writes to the console over a
    history that starts with the clock at [t]. *)
Fixpoint request_log (t : string) (evs : list event) : list string :=
  match evs with
  | [] => []
  | Incoming req :: evs' =>
      (t +:+ " - " +:+ method req +:+ " " +:+ url req) :: request_log t evs'
  | ClockSet t' :: evs' => request_log t' evs'
  | _ :: evs' => request_log t evs'
  end.

(** ** The port: africa-server.js and the start scripts *)

(** The environment of a process: [process.env] in Node, the exported
    variables in the shell. *)
Abbreviation Env := (gmap string string).

(** The value of [process.env.PORT || 3001]: a string of the environment or
    the number. *)
Inductive port_value : Type :=
  | PortText (s : string)
  | PortNumber (n : Z).

(** [process.env[name] || d]: [undefined] and the empty string are falsy. *)
Definition env_or (env : Env) (name : string) (d : Z) : port_value :=
  match env !! name with
  | Some s => if s === "" then PortNumber d else PortText s
  | None => PortNumber d
  end.

Definition PORT (env : Env) : port_value := env_or env "PORT" 3001.

(** The text of a port value inside a template literal. *)
Definition port_text (p : port_value) : string :=
  match p with
  | PortText s => s
  | PortNumber n => pretty n
  end.

(** The callback given to [server.listen]: what it writes to the console. *)
Definition listening (env : Env) : M unit :=
  console_log ("Africa monitoring server running on port " +:+ port_text (PORT env));;
  console_log ("Open http://localhost:" +:+ port_text (PORT env)).

(** The shell's [${name:-d}]: the default when the variable is unset or
    empty. *)
Definition sh_default (env : Env) (name d : string) : string :=
  match env !! name with
  | Some s => if s === "" then d else s
  | None => d
  end.

(** The line with which the start script that runs the server first
    announces it. *)
Definition announce_server_first (env : Env) : string :=
  "Starting web server on port " +:+ sh_default env "PORT" "8080" +:+ "...".

(** The line with which the start script that generates the data first
    announces the server. *)
Definition announce_data_first (env : Env) : string :=
  "Starting web server on port " +:+ sh_default env "PORT" "3001" +:+ "...".

(** ** update_hourly.sh *)

(** The shell's [[ -f p ]]: [p] names a regular file. *)
Definition test_f (fs : gmap string inode) (p : string) : bool :=
  match fs !! p with
  | Some (File _ _) => true
  | _ => false
  end.

(** The last component of a path. *)
Fixpoint basename_from (acc s : string) : string :=
  match s with
  | EmptyString => acc
  | String c s' =>
      if Ascii.eqb c "/" then basename_from EmptyString s'
      else basename_from (acc +:+ String c EmptyString) s'
  end.

Definition basename (p : string) : string := basename_from EmptyString p.

(** Writing [data] at [target] as [cp] does: a new file is made, a file
    that is there keeps its mode and takes the data, a directory is not
    overwritten. Files are taken to be writable by the process. *)
Definition cp_write (fs : gmap string inode) (data : Buffer) (target : string)
  : Z * gmap string inode :=
  match fs !! target with
  | None => (0, <[target := File data true]> fs)
  | Some (File _ r) => (0, <[target := File data r]> fs)
  | Some Dir => (1, fs)
  end.

(** [cp src dst] for a source that is not a directory: the exit status and
    the files after it. A source that cannot be read, or that is the
    destination itself, fails and changes nothing; a destination that is a
    directory receives the file under the source's name. *)
Definition cp (fs : gmap string inode) (src dst : string) : Z * gmap string inode :=
  match fs_read fs src with
  | inl _ => (1, fs)
  | inr data =>
      match fs !! dst with
      | Some Dir => cp_write fs data (path_join dst (basename src))
      | _ => if src === dst then (1, fs) else cp_write fs data dst
      end
  end.

(** One run of [python3 africa_monitor.py]: its exit status, the files it
    leaves and the lines it prints. *)
Record generation : Type := mkGeneration {
  gen_status : Z;
  gen_files : gmap string inode;
  gen_output : list string
}.

Definition rule : string := "==========================================".

Section UpdateHourly.

(** The data generator, which is not part of this program. *)
Variable africa_monitor : gmap string inode -> generation.

(** The directory the script is run in. *)
Variable cwd : string.

Definition generated_file : string := "/tmp/africa_data/africa_monitoring.json".
Definition public_file : string := path_join cwd "africa_monitoring.json".

(** The script: the files after it and the lines on its standard output,
    [date] being the output of [date]. *)
Definition update_hourly (date : string) (fs : gmap string inode)
  : gmap string inode * list string :=
  let banner :=
    [rule; "Africa Monitoring - Hourly Update"; "Time: " +:+ date; rule] in
  (* Generate new data *)
  let g := africa_monitor fs in
  let result :=
    (* Check if generation was successful *)
    if (gen_status g =? 0)%Z then
      (* Copy to public directory *)
      if test_f (gen_files g) generated_file then
        (snd (cp (gen_files g) generated_file public_file),
         ["✓ Data generation successful"; "✓ Data file updated"])
      else
        (gen_files g, ["✓ Data generation successful"; "✗ Data file not found"])
    else
      (gen_files g, ["✗ Data generation failed"]) in
  (fst result,
   (banner ++ gen_output g ++ snd result ++ [rule; "Update complete"; rule])%list).

End UpdateHourly.

(** ** Sample generators and environments *)

(** A generator that succeeds and leaves new data under /tmp. *)
Definition good_monitor (fs : gmap string inode) : generation :=
  {| gen_status := 0;
     gen_files :=
       <["/tmp/africa_data/africa_monitoring.json" :=
           File (Buffer_from "[1]") true]> fs;
     gen_output := ["done"] |}.

(** A generator that succeeds but leaves data that cannot be read. *)
Definition locked_monitor (fs : gmap string inode) : generation :=
  {| gen_status := 0;
     gen_files :=
       <["/tmp/africa_data/africa_monitoring.json" :=
           File (Buffer_from "[1]") false]> fs;
     gen_output := [] |}.

(** A generator that fails and changes nothing. *)
Definition failing_monitor (fs : gmap string inode) : generation :=
  {| gen_status := 1; gen_files := fs; gen_output := ["Traceback"] |}.

Definition railway_env : Env := <["PORT" := "8080"]> ∅.

(** * Proofs *)

Ltac run_monad :=
  unfold Date_now_toISOString, console_log, setHeader, writeHead, end_,
    readFile, get_ctx, modify, throw, mbind, M_bind, mret, M_ret,
    set_res, set_world, with_headers;
  cbn.

Section AfricaServerProofs.

Variable dirname : string.

Abbreviation handle' := (handle dirname).
Abbreviation respond' := (respond dirname).

Lemma handle_options (w : World) (req : IncomingMessage) :
  method req = "OPTIONS" ->
  handle' w req = (Ok tt, mkCtx (logged w req) (reply 200 [] [])).
Proof.
  intros Hm. unfold handle, handler, logged. rewrite Hm.
  run_monad. reflexivity.
Qed.

Lemma handle_html (w : World) (req : IncomingMessage) :
  method req <> "OPTIONS" ->
  url req = "/" \/ url req = "/africa.html" ->
  handle' w req =
    (Ok tt,
     mkCtx (noted (html_path dirname) (logged w req))
       match fs_read (files w) (html_path dirname) with
       | inr data => reply 200 [("Content-Type", "text/html; charset=utf-8")] data
       | inl _ => not_found
       end).
Proof.
  intros Hm Hu. apply String.eqb_neq in Hm.
  unfold handle, handler, str_eq. rewrite Hm.
  replace ((url req =? "/") || (url req =? "/africa.html"))%bool with true
    by (destruct Hu as [-> | ->]; reflexivity).
  run_monad. unfold html_path.
  destruct (fs_read (files w) (path_join (DATA_DIR dirname) "africa.html"));
    reflexivity.
Qed.

Lemma handle_json (w : World) (req : IncomingMessage) :
  method req <> "OPTIONS" ->
  url req = "/africa_monitoring.json" ->
  handle' w req =
    (Ok tt,
     mkCtx (noted (json_path dirname) (logged w req))
       match fs_read (files w) (json_path dirname) with
       | inr data =>
           reply 200 [("Content-Type", "application/json; charset=utf-8")] data
       | inl _ =>
           reply 404 [("Content-Type", "application/json")]
             (Buffer_from
                (JSON_stringify (JObject [("error", JString "Data not found")])))
       end).
Proof.
  destruct req as [m u]. cbn [method url]. intros Hm ->.
  apply String.eqb_neq in Hm.
  unfold handle, handler, str_eq. cbn [method url]. rewrite Hm.
  run_monad. unfold json_path.
  destruct (fs_read (files w) (path_join (DATA_DIR dirname) "africa_monitoring.json"));
    reflexivity.
Qed.

Lemma handle_other (w : World) (req : IncomingMessage) :
  method req <> "OPTIONS" ->
  routed (url req) = false ->
  handle' w req = (Ok tt, mkCtx (logged w req) not_found).
Proof.
  intros Hm Hu. apply String.eqb_neq in Hm.
  unfold routed, str_eq in Hu.
  apply orb_false_elim in Hu as [Hu H3]. apply orb_false_elim in Hu as [H1 H2].
  unfold handle, handler, str_eq. rewrite Hm, H1, H2, H3.
  run_monad. reflexivity.
Qed.

Lemma route_cases (u : string) :
  u = "/" \/ u = "/africa.html" \/ u = "/africa_monitoring.json" \/
  routed u = false.
Proof.
  unfold routed, str_eq.
  destruct (String.eqb_spec u "/"); [auto |].
  destruct (String.eqb_spec u "/africa.html"); [auto |].
  destruct (String.eqb_spec u "/africa_monitoring.json"); auto.
Qed.

(** Every run of the handler returns normally, with a finished response
    that carries the CORS headers. *)
Lemma handle_finishes (w : World) (req : IncomingMessage) :
  fst (handle' w req) = Ok tt /\
  finished (respond' w req) = true /\
  cors_headers_set (respond' w req).
Proof.
  unfold respond.
  destruct (String.eqb_spec (method req) "OPTIONS") as [Hm | Hm].
  - rewrite handle_options by assumption. cbn. repeat split.
  - destruct (route_cases (url req)) as [Hu | [Hu | [Hu | Hu]]].
    + rewrite handle_html by auto. cbn.
      destruct (fs_read _ _); repeat split.
    + rewrite handle_html by auto. cbn.
      destruct (fs_read _ _); repeat split.
    + rewrite handle_json by auto. cbn.
      destruct (fs_read _ _); repeat split.
    + rewrite handle_other by auto. cbn. repeat split.
Qed.

(** The handler only reads the file system. *)
Lemma handle_files (w : World) (req : IncomingMessage) :
  files (world (snd (handle' w req))) = files w.
Proof.
  destruct (String.eqb_spec (method req) "OPTIONS") as [Hm | Hm].
  - rewrite handle_options by assumption. reflexivity.
  - destruct (route_cases (url req)) as [Hu | [Hu | [Hu | Hu]]].
    + rewrite handle_html by auto. reflexivity.
    + rewrite handle_html by auto. reflexivity.
    + rewrite handle_json by auto. reflexivity.
    + rewrite handle_other by auto. reflexivity.
Qed.

(** The response is a function of the request and of what reading the two
    files gives. *)
Lemma respond_determined (w1 w2 : World) (req : IncomingMessage) :
  fs_read (files w1) (html_path dirname) = fs_read (files w2) (html_path dirname) ->
  fs_read (files w1) (json_path dirname) = fs_read (files w2) (json_path dirname) ->
  respond' w1 req = respond' w2 req.
Proof.
  intros Hh Hj. unfold respond.
  destruct (String.eqb_spec (method req) "OPTIONS") as [Hm | Hm].
  - now rewrite !handle_options by assumption.
  - destruct (route_cases (url req)) as [Hu | [Hu | [Hu | Hu]]].
    + rewrite !handle_html by auto. cbn. now rewrite Hh.
    + rewrite !handle_html by auto. cbn. now rewrite Hh.
    + rewrite !handle_json by auto. cbn. now rewrite Hj.
    + now rewrite !handle_other by auto.
Qed.

(** A request makes the server send exactly one more response. *)
Lemma step_incoming (s : Server) (req : IncomingMessage) :
  crashed s = None ->
  step dirname s (Incoming req) =
    {| sworld := world (snd (handle' (sworld s) req));
       responses := responses s ++ [respond' (sworld s) req];
       crashed := None |}.
Proof.
  intros Hc. unfold step, respond. rewrite Hc.
  pose proof (handle_finishes (sworld s) req) as [Hok _].
  destruct (handle' (sworld s) req) as [o c]. cbn in Hok. now subst o.
Qed.

Lemma step_alive (s : Server) (e : event) :
  crashed s = None -> crashed (step dirname s e) = None.
Proof.
  intros Hc. destruct e as [req | p i | p | t].
  - now rewrite step_incoming.
  - unfold step. now rewrite Hc.
  - unfold step. now rewrite Hc.
  - unfold step. now rewrite Hc.
Qed.

Lemma run_alive (evs : list event) : forall s : Server,
  crashed s = None -> crashed (run dirname s evs) = None.
Proof.
  induction evs as [| e evs IH]; intros s Hc; cbn.
  - assumption.
  - apply IH. now apply step_alive.
Qed.

(** Responses already sent stay as they are, and each one added by a run
    is what [respond'] gives in the world of its request. *)
Lemma run_responses (P : ServerResponse -> Prop) :
  (forall w req, P (respond' w req)) ->
  forall (evs : list event) (s : Server),
    crashed s = None -> Forall P (responses s) ->
    Forall P (responses (run dirname s evs)).
Proof.
  intros HP. induction evs as [| e evs IH]; intros s Hc Hs; cbn.
  - assumption.
  - apply IH; [now apply step_alive |].
    destruct e as [req | p i | p | t].
    + rewrite step_incoming by assumption. cbn.
      apply Forall_app. split; [assumption |]. constructor; [apply HP | constructor].
    + unfold step. now rewrite Hc.
    + unfold step. now rewrite Hc.
    + unfold step. now rewrite Hc.
Qed.

(** ** The routes *)

(** C1: whenever the JSON data file can be read, GET /africa_monitoring.json
    is answered with status 200, content type
    [application/json; charset=utf-8] and the bytes of the file as body. *)
Theorem json_route_serves_file (w : World) (data : Buffer) :
  fs_read (files w) (json_path dirname) = inr data ->
  fst (handle' w (mkRequest "GET" "/africa_monitoring.json")) = Ok tt /\
  finished (respond' w (mkRequest "GET" "/africa_monitoring.json")) = true /\
  statusCode (respond' w (mkRequest "GET" "/africa_monitoring.json")) = 200 /\
  getHeader "Content-Type"
    (headers (respond' w (mkRequest "GET" "/africa_monitoring.json")))
    = Some "application/json; charset=utf-8" /\
  body (respond' w (mkRequest "GET" "/africa_monitoring.json")) = data.
Proof.
  intros Hread. unfold respond.
  rewrite handle_json by (cbn; congruence). cbn [snd fst res].
  rewrite Hread. repeat split.
Qed.

(** C2: whenever the HTML page file can be read, GET / and GET /africa.html
    are answered with status 200, content type [text/html; charset=utf-8]
    and the bytes of the file as body. *)
Theorem html_route_serves_file (w : World) (u : string) (data : Buffer) :
  u = "/" \/ u = "/africa.html" ->
  fs_read (files w) (html_path dirname) = inr data ->
  fst (handle' w (mkRequest "GET" u)) = Ok tt /\
  finished (respond' w (mkRequest "GET" u)) = true /\
  statusCode (respond' w (mkRequest "GET" u)) = 200 /\
  getHeader "Content-Type" (headers (respond' w (mkRequest "GET" u)))
    = Some "text/html; charset=utf-8" /\
  body (respond' w (mkRequest "GET" u)) = data.
Proof.
  intros Hu Hread. unfold respond.
  rewrite handle_html by (cbn; congruence). cbn [snd fst res].
  rewrite Hread. repeat split.
Qed.

(** C3: whenever reading the JSON data file fails (the file is missing, may
    not be read, or is a directory), GET /africa_monitoring.json is answered
    with status 404, content type [application/json] and the serialised
    error object, whose text is [error_body_text], as body; this holds for
    every error and every world, so a failed read gives nothing else. *)
Theorem json_route_read_failure (w : World) (e : errno) :
  fs_read (files w) (json_path dirname) = inl e ->
  fst (handle' w (mkRequest "GET" "/africa_monitoring.json")) = Ok tt /\
  finished (respond' w (mkRequest "GET" "/africa_monitoring.json")) = true /\
  statusCode (respond' w (mkRequest "GET" "/africa_monitoring.json")) = 404 /\
  getHeader "Content-Type"
    (headers (respond' w (mkRequest "GET" "/africa_monitoring.json")))
    = Some "application/json" /\
  body (respond' w (mkRequest "GET" "/africa_monitoring.json"))
    = Buffer_from (JSON_stringify (JObject [("error", JString "Data not found")])) /\
  body (respond' w (mkRequest "GET" "/africa_monitoring.json"))
    = Buffer_from error_body_text.
Proof.
  intros Hread. unfold respond.
  rewrite handle_json by (cbn; congruence). cbn [snd fst res].
  rewrite Hread. repeat split.
Qed.

(** C4: whenever reading the HTML page file fails, GET / and
    GET /africa.html are answered with status 404, content type [text/plain]
    and the body [404 Not Found]. *)
Theorem html_route_read_failure (w : World) (u : string) (e : errno) :
  u = "/" \/ u = "/africa.html" ->
  fs_read (files w) (html_path dirname) = inl e ->
  fst (handle' w (mkRequest "GET" u)) = Ok tt /\
  finished (respond' w (mkRequest "GET" u)) = true /\
  statusCode (respond' w (mkRequest "GET" u)) = 404 /\
  getHeader "Content-Type" (headers (respond' w (mkRequest "GET" u)))
    = Some "text/plain" /\
  body (respond' w (mkRequest "GET" u)) = Buffer_from "404 Not Found".
Proof.
  intros Hu Hread. unfold respond.
  rewrite handle_html by (cbn; congruence). cbn [snd fst res].
  rewrite Hread. repeat split.
Qed.

(** C5: a GET request whose URL is none of /, /africa.html and
    /africa_monitoring.json is answered with status 404, content type
    [text/plain] and the body [404 Not Found]; no file is read for it and
    the response is the same in every world, whatever files exist. *)
Theorem unknown_path_not_found (w : World) (u : string) :
  u <> "/" -> u <> "/africa.html" -> u <> "/africa_monitoring.json" ->
  fst (handle' w (mkRequest "GET" u)) = Ok tt /\
  finished (respond' w (mkRequest "GET" u)) = true /\
  statusCode (respond' w (mkRequest "GET" u)) = 404 /\
  getHeader "Content-Type" (headers (respond' w (mkRequest "GET" u)))
    = Some "text/plain" /\
  body (respond' w (mkRequest "GET" u)) = Buffer_from "404 Not Found" /\
  reads (world (snd (handle' w (mkRequest "GET" u)))) = reads w /\
  forall w' : World, respond' w' (mkRequest "GET" u) = respond' w (mkRequest "GET" u).
Proof.
  intros H1 H2 H3.
  assert (Hr : routed u = false).
  { destruct (route_cases u) as [? | [? | [? | ?]]]; congruence. }
  unfold respond. rewrite handle_other by (cbn; congruence).
  repeat split. intros w'. now rewrite handle_other by (cbn; congruence).
Qed.

(** C6: an OPTIONS request, whatever its URL and whatever the files, is
    answered with status 200, an empty body and the CORS headers; no file is
    read, and the response is the same in every world. *)
Theorem options_preflight (w : World) (u : string) :
  fst (handle' w (mkRequest "OPTIONS" u)) = Ok tt /\
  finished (respond' w (mkRequest "OPTIONS" u)) = true /\
  statusCode (respond' w (mkRequest "OPTIONS" u)) = 200 /\
  body (respond' w (mkRequest "OPTIONS" u)) = [] /\
  cors_headers_set (respond' w (mkRequest "OPTIONS" u)) /\
  reads (world (snd (handle' w (mkRequest "OPTIONS" u)))) = reads w /\
  forall w' : World,
    respond' w' (mkRequest "OPTIONS" u) = respond' w (mkRequest "OPTIONS" u).
Proof.
  unfold respond. rewrite handle_options by reflexivity.
  repeat split.
Qed.

(** C7: every run of the handler ends normally with a finished response
    that carries [Access-Control-Allow-Origin: *],
    [Access-Control-Allow-Methods: GET, OPTIONS] and
    [Access-Control-Allow-Headers: Content-Type]; so the server never stops
    on an exception and every response it has sent carries them. *)
Theorem every_response_has_cors (w : World) :
  (forall req : IncomingMessage,
     fst (handle' w req) = Ok tt /\
     finished (respond' w req) = true /\
     cors_headers_set (respond' w req)) /\
  (forall evs : list event,
     crashed (run dirname (boot w) evs) = None /\
     Forall (fun r => finished r = true /\ cors_headers_set r)
            (responses (run dirname (boot w) evs))).
Proof.
  split.
  - intros req. apply handle_finishes.
  - intros evs. split.
    + now apply run_alive.
    + apply run_responses.
      * intros w' req. apply handle_finishes.
      * reflexivity.
      * constructor.
Qed.

(** C8: the response to a request is fixed by the request and by what the
    two files hold when it is handled: after any two histories of requests
    and changes to the world, if reading the two files gives the same in
    both, the same request makes both servers send the same one response,
    the one a server that has logged and read nothing sends on these
    files. *)
Theorem response_depends_on_request_and_files
    (w1 w2 : World) (h1 h2 : list event) (req : IncomingMessage) :
  fs_read (files (sworld (run dirname (boot w1) h1))) (html_path dirname)
    = fs_read (files (sworld (run dirname (boot w2) h2))) (html_path dirname) ->
  fs_read (files (sworld (run dirname (boot w1) h1))) (json_path dirname)
    = fs_read (files (sworld (run dirname (boot w2) h2))) (json_path dirname) ->
  exists r : ServerResponse,
    responses (step dirname (run dirname (boot w1) h1) (Incoming req))
      = (responses (run dirname (boot w1) h1) ++ [r])%list /\
    responses (step dirname (run dirname (boot w2) h2) (Incoming req))
      = (responses (run dirname (boot w2) h2) ++ [r])%list /\
    r = respond'
          {| files := files (sworld (run dirname (boot w1) h1));
             clock := ""; console := []; reads := [] |} req.
Proof.
  intros Hh Hj.
  exists (respond' (sworld (run dirname (boot w1) h1)) req).
  rewrite !step_incoming by now apply run_alive.
  cbn [responses]. split; [reflexivity |]. split.
  - f_equal. f_equal. now apply respond_determined.
  - now apply respond_determined.
Qed.

(** C9: for methods other than OPTIONS the answer depends on the URL only:
    two requests with the same URL and any two such methods get the same
    response and make the handler read the same files. *)
Theorem method_is_ignored (w : World) (m1 m2 u : string) :
  m1 <> "OPTIONS" -> m2 <> "OPTIONS" ->
  respond' w (mkRequest m1 u) = respond' w (mkRequest m2 u) /\
  fst (handle' w (mkRequest m1 u)) = fst (handle' w (mkRequest m2 u)) /\
  reads (world (snd (handle' w (mkRequest m1 u))))
    = reads (world (snd (handle' w (mkRequest m2 u)))).
Proof.
  intros H1 H2. unfold respond.
  destruct (route_cases u) as [Hu | [Hu | [Hu | Hu]]].
  - rewrite !handle_html by auto. repeat split.
  - rewrite !handle_html by auto. repeat split.
  - rewrite !handle_json by auto. repeat split.
  - rewrite !handle_other by auto. repeat split.
Qed.

Lemma routed_no_query (u : string) : routed u = true -> has_query u = false.
Proof.
  intros Hr. destruct (route_cases u) as [-> | [-> | [-> | Hu]]];
    [reflexivity | reflexivity | reflexivity | congruence].
Qed.

(** C10: the URL is compared as a whole string, so a request with a method
    other than OPTIONS whose URL has a query part, or has more characters
    after a routed URL without being one itself, gets the fallback answer
    (status 404, [text/plain], [404 Not Found]) in every world, also when
    both files exist, and no file is read; /?x=1, /africa.html/ and
    /africa_monitoring.json?t=1 are such URLs. *)
Theorem exact_match_only (w : World) (m u : string) :
  m <> "OPTIONS" ->
  has_query u = true \/ has_trailing u = true ->
  routed u = false /\
  fst (handle' w (mkRequest m u)) = Ok tt /\
  finished (respond' w (mkRequest m u)) = true /\
  statusCode (respond' w (mkRequest m u)) = 404 /\
  getHeader "Content-Type" (headers (respond' w (mkRequest m u)))
    = Some "text/plain" /\
  body (respond' w (mkRequest m u)) = Buffer_from "404 Not Found" /\
  reads (world (snd (handle' w (mkRequest m u)))) = reads w /\
  (has_query "/?x=1" = true /\ has_trailing "/africa.html/" = true /\
   has_query "/africa_monitoring.json?t=1" = true).
Proof.
  intros Hm Hu.
  assert (Hr : routed u = false).
  { destruct Hu as [Hq | Ht].
    - destruct (routed u) eqn:Hr; [| reflexivity].
      apply routed_no_query in Hr. congruence.
    - unfold has_trailing in Ht. apply andb_prop in Ht as [Ht _].
      now apply negb_true_iff in Ht. }
  unfold respond. rewrite handle_other by assumption.
  repeat split. assumption.
Qed.

End AfricaServerProofs.

(** ** The theorems at the sample worlds *)

Lemma json_route_serves_file_witness :
  fs_read (files (world_of full_files)) (json_path "/app") = inr (Buffer_from "{}") /\
  body (respond "/app" (world_of full_files)
          (mkRequest "GET" "/africa_monitoring.json")) = Buffer_from "{}".
Proof.
  split; [vm_compute; reflexivity |].
  apply (json_route_serves_file "/app" (world_of full_files) (Buffer_from "{}")).
  vm_compute; reflexivity.
Defined.

Lemma html_route_serves_file_witness :
  ("/africa.html" = "/" \/ "/africa.html" = "/africa.html") /\
  fs_read (files (world_of full_files)) (html_path "/app")
    = inr (Buffer_from "<h1>Africa</h1>") /\
  body (respond "/app" (world_of full_files) (mkRequest "GET" "/africa.html"))
    = Buffer_from "<h1>Africa</h1>".
Proof.
  split; [right; reflexivity |].
  split; [vm_compute; reflexivity |].
  apply (html_route_serves_file "/app" (world_of full_files) "/africa.html"
           (Buffer_from "<h1>Africa</h1>")).
  - right. reflexivity.
  - vm_compute; reflexivity.
Defined.

Lemma json_route_read_failure_witness :
  fs_read (files (world_of bare_files)) (json_path "/app") = inl ENOENT /\
  statusCode (respond "/app" (world_of bare_files)
                (mkRequest "GET" "/africa_monitoring.json")) = 404.
Proof.
  split; [vm_compute; reflexivity |].
  apply (json_route_read_failure "/app" (world_of bare_files) ENOENT).
  vm_compute; reflexivity.
Defined.

Lemma html_route_read_failure_witness :
  ("/" = "/" \/ "/" = "/africa.html") /\
  fs_read (files (world_of bare_files)) (html_path "/app") = inl EACCES /\
  body (respond "/app" (world_of bare_files) (mkRequest "GET" "/"))
    = Buffer_from "404 Not Found".
Proof.
  split; [left; reflexivity |].
  split; [vm_compute; reflexivity |].
  apply (html_route_read_failure "/app" (world_of bare_files) "/" EACCES).
  - left. reflexivity.
  - vm_compute; reflexivity.
Defined.

Lemma unknown_path_not_found_witness :
  "/unknown" <> "/" /\ "/unknown" <> "/africa.html" /\
  "/unknown" <> "/africa_monitoring.json" /\
  statusCode (respond "/app" (world_of full_files) (mkRequest "GET" "/unknown"))
    = 404.
Proof.
  split; [discriminate |]. split; [discriminate |]. split; [discriminate |].
  apply (unknown_path_not_found "/app" (world_of full_files) "/unknown");
    discriminate.
Defined.

Lemma response_depends_on_request_and_files_witness :
  fs_read (files (sworld (run "/app" (boot (world_of full_files)) busy_history)))
      (html_path "/app")
    = fs_read (files (sworld (run "/app" (boot (world_of bare_files)) update_history)))
        (html_path "/app") /\
  fs_read (files (sworld (run "/app" (boot (world_of full_files)) busy_history)))
      (json_path "/app")
    = fs_read (files (sworld (run "/app" (boot (world_of bare_files)) update_history)))
        (json_path "/app") /\
  exists r : ServerResponse,
    responses
      (step "/app" (run "/app" (boot (world_of full_files)) busy_history)
         (Incoming (mkRequest "GET" "/africa_monitoring.json")))
      = (responses (run "/app" (boot (world_of full_files)) busy_history)
           ++ [r])%list /\
    responses
      (step "/app" (run "/app" (boot (world_of bare_files)) update_history)
         (Incoming (mkRequest "GET" "/africa_monitoring.json")))
      = (responses (run "/app" (boot (world_of bare_files)) update_history)
           ++ [r])%list /\
    r = respond "/app"
          {| files :=
               files (sworld (run "/app" (boot (world_of full_files)) busy_history));
             clock := ""; console := []; reads := [] |}
          (mkRequest "GET" "/africa_monitoring.json").
Proof.
  split; [vm_compute; reflexivity |].
  split; [vm_compute; reflexivity |].
  apply (response_depends_on_request_and_files "/app"
           (world_of full_files) (world_of bare_files) busy_history update_history).
  - vm_compute; reflexivity.
  - vm_compute; reflexivity.
Defined.

Lemma method_is_ignored_witness :
  "POST" <> "OPTIONS" /\ "GET" <> "OPTIONS" /\
  respond "/app" (world_of full_files) (mkRequest "POST" "/")
    = respond "/app" (world_of full_files) (mkRequest "GET" "/").
Proof.
  split; [discriminate |]. split; [discriminate |].
  apply (method_is_ignored "/app" (world_of full_files) "POST" "GET" "/");
    discriminate.
Defined.

Lemma exact_match_only_witness :
  "GET" <> "OPTIONS" /\
  (has_query "/africa_monitoring.json?t=1" = true \/
   has_trailing "/africa_monitoring.json?t=1" = true) /\
  fs_read (files (world_of full_files)) (json_path "/app") = inr (Buffer_from "{}") /\
  statusCode (respond "/app" (world_of full_files)
                (mkRequest "GET" "/africa_monitoring.json?t=1")) = 404.
Proof.
  split; [discriminate |].
  split; [left; reflexivity |].
  split; [vm_compute; reflexivity |].
  apply (exact_match_only "/app" (world_of full_files) "GET"
           "/africa_monitoring.json?t=1").
  - discriminate.
  - left. reflexivity.
Defined.

(** * More on africa-server.js *)

Section AfricaServerHistories.

Variable dirname : string.

(** The world a run of the handler leaves: the request line is logged, at
    most one of the two files is read, and nothing else changes. *)
Lemma handle_world (w : World) (req : IncomingMessage) :
  exists l : list string,
    world (snd (handle dirname w req)) =
      {| files := files w; clock := clock w;
         console :=
           console w ++ [clock w +:+ " - " +:+ method req +:+ " " +:+ url req];
         reads := reads w ++ l |} /\
    (l = [] \/ l = [html_path dirname] \/ l = [json_path dirname]).
Proof.
  destruct (String.eqb_spec (method req) "OPTIONS") as [Hm | Hm].
  - exists []. rewrite handle_options by assumption. cbn.
    unfold logged. rewrite app_nil_r. auto.
  - destruct (route_cases (url req)) as [Hu | [Hu | [Hu | Hu]]].
    + exists [html_path dirname]. rewrite handle_html by auto. cbn. auto.
    + exists [html_path dirname]. rewrite handle_html by auto. cbn. auto.
    + exists [json_path dirname]. rewrite handle_json by auto. cbn. auto.
    + exists []. rewrite handle_other by auto. cbn.
      unfold logged. rewrite app_nil_r. auto.
Qed.

Lemma run_cons (s : Server) (e : event) (evs : list event) :
  run dirname s (e :: evs) = run dirname (step dirname s e) evs.
Proof. reflexivity. Qed.

Lemma run_app (s : Server) (h evs : list event) :
  run dirname s (h ++ evs) = run dirname (run dirname s h) evs.
Proof. unfold run. apply fold_left_app. Qed.

Lemma step_world_event (s : Server) (e : event) :
  crashed s = None -> is_incoming e = false ->
  responses (step dirname s e) = responses s /\
  console (sworld (step dirname s e)) = console (sworld s) /\
  reads (sworld (step dirname s e)) = reads (sworld s).
Proof.
  intros Hc He. unfold step. rewrite Hc.
  destruct e; [discriminate | | |]; cbn; auto.
Qed.

Lemma console_of_run (evs : list event) : forall s : Server,
  crashed s = None ->
  console (sworld (run dirname s evs))
    = (console (sworld s) ++ request_log (clock (sworld s)) evs)%list.
Proof.
  induction evs as [| e evs IH]; intros s Hc.
  - cbn. now rewrite app_nil_r.
  - rewrite run_cons, IH by now apply step_alive.
    destruct e as [req | p i | p | t].
    + rewrite step_incoming by assumption. cbn [sworld request_log].
      destruct (handle_world (sworld s) req) as (l & -> & _). cbn [console clock].
      now rewrite <- app_assoc.
    + unfold step. rewrite Hc. reflexivity.
    + unfold step. rewrite Hc. reflexivity.
    + unfold step. rewrite Hc. reflexivity.
Qed.

Lemma reads_of_run (evs : list event) : forall s : Server,
  crashed s = None ->
  exists l : list string,
    reads (sworld (run dirname s evs)) = (reads (sworld s) ++ l)%list /\
    Forall (fun p => p = html_path dirname \/ p = json_path dirname) l /\
    (length l <= length (List.filter is_incoming evs))%nat.
Proof.
  induction evs as [| e evs IH]; intros s Hc.
  - exists []. cbn. rewrite app_nil_r. auto.
  - rewrite run_cons.
    destruct (IH (step dirname s e) (step_alive dirname s e Hc))
      as (l & Hl & Hall & Hlen).
    destruct (is_incoming e) eqn:He.
    + destruct e as [req | | |]; try discriminate.
      destruct (handle_world (sworld s) req) as (l0 & Hw & Hl0).
      exists (l0 ++ l)%list. rewrite Hl.
      rewrite step_incoming by assumption. cbn [sworld].
      rewrite Hw. cbn [reads]. rewrite <- app_assoc.
      split; [reflexivity |]. split.
      * apply Forall_app. split; [| assumption].
        destruct Hl0 as [-> | [-> | ->]]; constructor; auto.
      * cbn [List.filter is_incoming]. rewrite length_app.
        destruct Hl0 as [-> | [-> | ->]]; cbn; lia.
    + destruct (step_world_event s e Hc He) as (_ & _ & Hr).
      exists l. rewrite Hl, Hr.
      split; [reflexivity |]. split; [assumption |].
      cbn [List.filter]. now rewrite He.
Qed.

Lemma files_of_run (evs : list event) : forall s1 s2 : Server,
  crashed s1 = None -> crashed s2 = None ->
  files (sworld s1) = files (sworld s2) ->
  files (sworld (run dirname s1 evs))
    = files (sworld (run dirname s2 (List.filter (fun e => negb (is_incoming e)) evs))).
Proof.
  induction evs as [| e evs IH]; intros s1 s2 H1 H2 Hf.
  - assumption.
  - rewrite run_cons. destruct e as [req | p i | p | t]; cbn [List.filter is_incoming negb].
    + apply IH; [now apply step_alive | assumption |].
      rewrite step_incoming by assumption. cbn [sworld].
      now rewrite handle_files.
    + rewrite run_cons.
      apply IH; [now apply step_alive | now apply step_alive |].
      unfold step. rewrite H1, H2. cbn. now rewrite Hf.
    + rewrite run_cons.
      apply IH; [now apply step_alive | now apply step_alive |].
      unfold step. rewrite H1, H2. cbn. now rewrite Hf.
    + rewrite run_cons.
      apply IH; [now apply step_alive | now apply step_alive |].
      unfold step. rewrite H1, H2. cbn. assumption.
Qed.


(** X1: over any history, the console holds what it held at the start and
    then one line per request, in order, made of the clock's text at that
    time, the method and the URL; preflights and unknown URLs are logged
    like the rest. *)
Theorem console_is_request_log (w : World) (evs : list event) :
  console (sworld (run dirname (boot w) evs))
    = (console w ++ request_log (clock w) evs)%list.
Proof. now rewrite console_of_run. Qed.

(** X2: over any history, the only paths the server hands to [fs.readFile]
    are the two fixed paths of the page and of the data file, whatever URLs
    were asked for, and there is at most one read per request. *)
Theorem reads_only_the_two_files (w : World) (evs : list event) :
  exists l : list string,
    reads (sworld (run dirname (boot w) evs)) = (reads w ++ l)%list /\
    Forall (fun p => p = html_path dirname \/ p = json_path dirname) l /\
    (length l <= length (List.filter is_incoming evs))%nat.
Proof. now apply (reads_of_run evs (boot w)). Qed.

(** X3: requests never change the file system: the files after a history
    are the files after the same history with every request left out. *)
Theorem requests_leave_files_alone (w : World) (evs : list event) :
  files (sworld (run dirname (boot w) evs))
    = files (sworld (run dirname (boot w)
                       (List.filter (fun e => negb (is_incoming e)) evs))).
Proof. now apply files_of_run. Qed.


(** X5: a response with status 200 to a request other than a preflight
    always carries a file: the URL is one of the three routed ones, the
    file of that route could be read, and the body is its bytes. *)
Theorem success_carries_the_file (w : World) (req : IncomingMessage) :
  method req <> "OPTIONS" ->
  statusCode (respond dirname w req) = 200 ->
  ((url req = "/" \/ url req = "/africa.html") /\
   fs_read (files w) (html_path dirname) = inr (body (respond dirname w req))) \/
  (url req = "/africa_monitoring.json" /\
   fs_read (files w) (json_path dirname) = inr (body (respond dirname w req))).
Proof.
  intros Hm. unfold respond.
  destruct (route_cases (url req)) as [Hu | [Hu | [Hu | Hu]]].
  - rewrite handle_html by auto. cbn [snd res].
    destruct (fs_read (files w) (html_path dirname)); [discriminate |]. auto.
  - rewrite handle_html by auto. cbn [snd res].
    destruct (fs_read (files w) (html_path dirname)); [discriminate |]. auto.
  - rewrite handle_json by auto. cbn [snd res].
    destruct (fs_read (files w) (json_path dirname)); [discriminate |]. auto.
  - rewrite handle_other by auto. discriminate.
Qed.

(** X6: the status of a response is 200 or 404 and nothing else, and a
    response lacks a Content-Type header exactly when the request's method
    is OPTIONS. *)
Theorem status_and_content_type (w : World) (req : IncomingMessage) :
  (statusCode (respond dirname w req) = 200 \/
   statusCode (respond dirname w req) = 404) /\
  (getHeader "Content-Type" (headers (respond dirname w req)) = None
   <-> method req = "OPTIONS").
Proof.
  unfold respond.
  destruct (String.eqb_spec (method req) "OPTIONS") as [Hm | Hm].
  - rewrite handle_options by assumption. cbn.
    split; [auto | split; auto].
  - destruct (route_cases (url req)) as [Hu | [Hu | [Hu | Hu]]].
    + rewrite handle_html by auto. cbn [snd res].
      destruct (fs_read _ _); cbn; (split; [auto | split; [discriminate | contradiction]]).
    + rewrite handle_html by auto. cbn [snd res].
      destruct (fs_read _ _); cbn; (split; [auto | split; [discriminate | contradiction]]).
    + rewrite handle_json by auto. cbn [snd res].
      destruct (fs_read _ _); cbn; (split; [auto | split; [discriminate | contradiction]]).
    + rewrite handle_other by auto. cbn.
      split; [auto | split; [discriminate | contradiction]].
Qed.

(** X7: nothing is cached: after any history, once a readable file has been
    written at the path of the data file, or of the page, the next GET of
    its route is answered with status 200, the route's content type and
    exactly the bytes written. *)
Theorem written_file_is_served (w : World) (h : list event) (d : Buffer) :
  responses
    (run dirname (boot w)
       (h ++ [FsWrite (json_path dirname) (File d true);
              Incoming (mkRequest "GET" "/africa_monitoring.json")]))
    = (responses (run dirname (boot w) h)
         ++ [reply 200 [("Content-Type", "application/json; charset=utf-8")] d])%list /\
  responses
    (run dirname (boot w)
       (h ++ [FsWrite (html_path dirname) (File d true);
              Incoming (mkRequest "GET" "/")]))
    = (responses (run dirname (boot w) h)
         ++ [reply 200 [("Content-Type", "text/html; charset=utf-8")] d])%list.
Proof.
  pose proof (run_alive dirname h (boot w) eq_refl) as Hc.
  split.
  - rewrite run_app, !run_cons. cbn [run fold_left].
    rewrite step_incoming by now apply step_alive.
    unfold step at 2 3. rewrite Hc. cbn [responses sworld]. f_equal. f_equal.
    unfold respond. rewrite handle_json by (cbn; congruence). cbn [snd res].
    unfold fs_read, with_files. cbn [files]. now rewrite lookup_insert_eq.
  - rewrite run_app, !run_cons. cbn [run fold_left].
    rewrite step_incoming by now apply step_alive.
    unfold step at 2 3. rewrite Hc. cbn [responses sworld]. f_equal. f_equal.
    unfold respond. rewrite handle_html by (cbn; auto; congruence). cbn [snd res].
    unfold fs_read, with_files. cbn [files]. now rewrite lookup_insert_eq.
Qed.

(** X8: after any history, once the data file, or the page, has been
    removed, the next GET of its route is answered with status 404: the
    JSON error object for the data route, the plain-text fallback for the
    page, whatever was served before. *)
Theorem removed_file_is_gone (w : World) (h : list event) :
  responses
    (run dirname (boot w)
       (h ++ [FsUnlink (json_path dirname);
              Incoming (mkRequest "GET" "/africa_monitoring.json")]))
    = (responses (run dirname (boot w) h)
         ++ [reply 404 [("Content-Type", "application/json")]
               (Buffer_from error_body_text)])%list /\
  responses
    (run dirname (boot w)
       (h ++ [FsUnlink (html_path dirname); Incoming (mkRequest "GET" "/")]))
    = (responses (run dirname (boot w) h) ++ [not_found])%list.
Proof.
  pose proof (run_alive dirname h (boot w) eq_refl) as Hc.
  split.
  - rewrite run_app, !run_cons. cbn [run fold_left].
    rewrite step_incoming by now apply step_alive.
    unfold step at 2 3. rewrite Hc. cbn [responses sworld]. f_equal. f_equal.
    unfold respond. rewrite handle_json by (cbn; congruence). cbn [snd res].
    unfold fs_read, with_files. cbn [files]. now rewrite lookup_delete_eq.
  - rewrite run_app, !run_cons. cbn [run fold_left].
    rewrite step_incoming by now apply step_alive.
    unfold step at 2 3. rewrite Hc. cbn [responses sworld]. f_equal. f_equal.
    unfold respond. rewrite handle_html by (cbn; auto; congruence). cbn [snd res].
    unfold fs_read, with_files. cbn [files]. now rewrite lookup_delete_eq.
Qed.

End AfricaServerHistories.

Lemma success_carries_the_file_witness :
  method (mkRequest "GET" "/africa.html") <> "OPTIONS" /\
  statusCode (respond "/app" (world_of full_files) (mkRequest "GET" "/africa.html"))
    = 200 /\
  (((url (mkRequest "GET" "/africa.html") = "/" \/
     url (mkRequest "GET" "/africa.html") = "/africa.html") /\
    fs_read (files (world_of full_files)) (html_path "/app")
      = inr (body (respond "/app" (world_of full_files)
                     (mkRequest "GET" "/africa.html")))) \/
   (url (mkRequest "GET" "/africa.html") = "/africa_monitoring.json" /\
    fs_read (files (world_of full_files)) (json_path "/app")
      = inr (body (respond "/app" (world_of full_files)
                     (mkRequest "GET" "/africa.html"))))).
Proof.
  split; [discriminate |].
  split; [vm_compute; reflexivity |].
  apply (success_carries_the_file "/app" (world_of full_files)
           (mkRequest "GET" "/africa.html")).
  - discriminate.
  - vm_compute; reflexivity.
Defined.

(** * The port *)

Lemma port_text_default (env : Env) (d : Z) :
  port_text (env_or env "PORT" d) = sh_default env "PORT" (pretty d).
Proof.
  unfold env_or, sh_default.
  destruct (env !! "PORT") as [s |]; [| reflexivity].
  destruct (s === ""); reflexivity.
Qed.

(** X9: in every environment the port named in the announcement of the
    start script that generates the data first is the port named in the two
    lines the server writes once it listens: the value of PORT, or 3001 when
    PORT is unset or empty. *)
Theorem data_first_script_announces_the_server_port (env : Env) (c : Ctx) :
  exists port : string,
    announce_data_first env = "Starting web server on port " +:+ port +:+ "..." /\
    fst (listening env c) = Ok tt /\
    console (world (snd (listening env c)))
      = (console (world c)
           ++ ["Africa monitoring server running on port " +:+ port;
               "Open http://localhost:" +:+ port])%list /\
    port = sh_default env "PORT" "3001".
Proof.
  exists (port_text (PORT env)). unfold PORT.
  rewrite port_text_default. change (pretty 3001%Z) with "3001".
  unfold announce_data_first, listening, PORT. rewrite port_text_default.
  change (pretty 3001%Z) with "3001".
  run_monad. rewrite <- app_assoc. repeat split.
Qed.

(** X10: the start script that runs the server first announces the port the
    server listens on exactly when PORT is set and not empty; otherwise it
    announces 8080 while the server takes 3001. *)
Theorem server_first_script_announces_another_default (env : Env) :
  (sh_default env "PORT" "8080" = port_text (PORT env)
   <-> exists s : string, env !! "PORT" = Some s /\ s <> "") /\
  (env !! "PORT" = None \/ env !! "PORT" = Some "" ->
   announce_server_first env = "Starting web server on port 8080..." /\
   port_text (PORT env) = "3001").
Proof.
  unfold announce_server_first, PORT. rewrite port_text_default.
  change (pretty 3001%Z) with "3001". unfold sh_default.
  destruct (env !! "PORT") as [s |] eqn:He.
  - unfold str_eq. destruct (String.eqb_spec s "") as [-> | Hs].
    + split.
      * split; [discriminate |]. intros (s & Hs & Hne). congruence.
      * auto.
    + split.
      * split; [eauto | reflexivity].
      * intros [H | H]; congruence.
  - split.
    + split; [discriminate |]. intros (s & Hs & _). discriminate.
    + auto.
Qed.

Lemma server_first_script_announces_another_default_witness :
  ((∅ : Env) !! "PORT" = None \/ (∅ : Env) !! "PORT" = Some "") /\
  announce_server_first ∅ = "Starting web server on port 8080..." /\
  port_text (PORT ∅) = "3001".
Proof.
  split; [left; reflexivity |].
  apply (server_first_script_announces_another_default ∅).
  left. reflexivity.
Defined.

(** * update_hourly.sh *)

Section UpdateHourlyProofs.

Variable africa_monitor : gmap string inode -> generation.
Variable cwd : string.

Abbreviation update := (update_hourly africa_monitor cwd).
Abbreviation public := (public_file cwd).

(** [cp_write] touches its target only. *)
Lemma cp_write_other (fs : gmap string inode) (data : Buffer) (target p : string) :
  p <> target -> snd (cp_write fs data target) !! p = fs !! p.
Proof.
  intros Hp. unfold cp_write.
  destruct (fs !! target) as [[old r |] |]; cbn;
    [now rewrite lookup_insert_ne | reflexivity | now rewrite lookup_insert_ne].
Qed.

(** [cp] touches the destination, or the file of the source's name under
    it, and nothing else. *)
Lemma cp_other (fs : gmap string inode) (src dst p : string) :
  p <> dst -> p <> path_join dst (basename src) ->
  snd (cp fs src dst) !! p = fs !! p.
Proof.
  intros H1 H2. unfold cp.
  destruct (fs_read fs src) as [e | data]; [reflexivity |].
  destruct (fs !! dst) as [[old r |] |].
  - destruct (src === dst); [reflexivity | now apply cp_write_other].
  - now apply cp_write_other.
  - destruct (src === dst); [reflexivity | now apply cp_write_other].
Qed.


(** X11: the script writes at most one path: every path other than the
    public data file (and, should that be a directory, the file of the same
    name inside it) is after the script as the generator left it, whether
    generation and copy worked or not. *)
Theorem update_touches_only_the_public_file
    (date : string) (fs : gmap string inode) (p : string) :
  p <> public ->
  p <> path_join public "africa_monitoring.json" ->
  fst (update date fs) !! p = gen_files (africa_monitor fs) !! p.
Proof.
  intros H1 H2. unfold update_hourly. cbn [fst].
  destruct (gen_status (africa_monitor fs) =? 0)%Z; [| reflexivity].
  destruct (test_f (gen_files (africa_monitor fs)) generated_file);
    [| reflexivity].
  cbn [fst]. now apply cp_other.
Qed.


(** X13: the script does not look at what [cp] returns: when generation
    succeeds but the generated file cannot be read, the files stay as the
    generator left them and the script still prints that the data file was
    updated. *)
Theorem update_reports_a_failed_copy
    (date : string) (fs : gmap string inode) (data : Buffer) :
  gen_status (africa_monitor fs) = 0 ->
  gen_files (africa_monitor fs) !! generated_file = Some (File data false) ->
  fst (update date fs) = gen_files (africa_monitor fs) /\
  snd (update date fs)
    = ([rule; "Africa Monitoring - Hourly Update"; "Time: " +:+ date; rule]
         ++ gen_output (africa_monitor fs)
         ++ ["✓ Data generation successful"; "✓ Data file updated";
             rule; "Update complete"; rule])%list.
Proof.
  intros Hs Hg. unfold update_hourly. rewrite Hs. cbn [Z.eqb].
  unfold test_f, cp, fs_read. rewrite Hg. split; reflexivity.
Qed.

(** X14: when generation fails, or succeeds without leaving a regular file
    under /tmp, the script itself changes no file; so if the generator left
    the public data file as it was, a server in the same directory answers
    GET /africa_monitoring.json after the script as it did before. *)
Theorem failed_update_keeps_the_old_data
    (date : string) (w w' : World) :
  gen_status (africa_monitor (files w)) <> 0 \/
    test_f (gen_files (africa_monitor (files w))) generated_file = false ->
  files w' = fst (update date (files w)) ->
  fs_read (gen_files (africa_monitor (files w))) public
    = fs_read (files w) public ->
  files w' = gen_files (africa_monitor (files w)) /\
  respond cwd w' (mkRequest "GET" "/africa_monitoring.json")
    = respond cwd w (mkRequest "GET" "/africa_monitoring.json").
Proof.
  intros Hfail Hw Hsame.
  assert (Hf : files w' = gen_files (africa_monitor (files w))).
  { rewrite Hw. unfold update_hourly. cbn [fst].
    destruct Hfail as [Hs | Ht].
    - apply Z.eqb_neq in Hs. now rewrite Hs.
    - rewrite Ht. now destruct (gen_status _ =? 0)%Z. }
  split; [assumption |].
  unfold respond. rewrite !handle_json by (cbn; congruence). cbn [snd res].
  unfold json_path, DATA_DIR.
  change (path_join cwd "africa_monitoring.json") with public.
  now rewrite Hf, Hsame.
Qed.

End UpdateHourlyProofs.

Lemma update_touches_only_the_public_file_witness :
  "/app/africa.html" <> public_file "/app" /\
  "/app/africa.html" <> path_join (public_file "/app") "africa_monitoring.json" /\
  fst (update_hourly good_monitor "/app" "Mon Jan  1 00:00:00 UTC 2025" full_files)
    !! "/app/africa.html"
    = gen_files (good_monitor full_files) !! "/app/africa.html".
Proof.
  split; [vm_compute; discriminate |].
  split; [vm_compute; discriminate |].
  apply (update_touches_only_the_public_file good_monitor "/app").
  - vm_compute; discriminate.
  - vm_compute; discriminate.
Defined.


Lemma update_reports_a_failed_copy_witness :
  gen_status (locked_monitor full_files) = 0 /\
  gen_files (locked_monitor full_files) !! generated_file
    = Some (File (Buffer_from "[1]") false) /\
  fst (update_hourly locked_monitor "/app" "Mon Jan  1 00:00:00 UTC 2025" full_files)
    = gen_files (locked_monitor full_files).
Proof.
  split; [reflexivity |].
  split; [vm_compute; reflexivity |].
  apply (update_reports_a_failed_copy locked_monitor "/app"
           "Mon Jan  1 00:00:00 UTC 2025" full_files (Buffer_from "[1]")).
  - reflexivity.
  - vm_compute; reflexivity.
Defined.

Lemma failed_update_keeps_the_old_data_witness :
  (gen_status (failing_monitor (files (world_of full_files))) <> 0 \/
   test_f (gen_files (failing_monitor (files (world_of full_files))))
     generated_file = false) /\
  respond "/app"
    (world_of (fst (update_hourly failing_monitor "/app"
                      "Mon Jan  1 00:00:00 UTC 2025" full_files)))
    (mkRequest "GET" "/africa_monitoring.json")
    = respond "/app" (world_of full_files)
        (mkRequest "GET" "/africa_monitoring.json").
Proof.
  split; [left; discriminate |].
  apply (failed_update_keeps_the_old_data failing_monitor "/app"
           "Mon Jan  1 00:00:00 UTC 2025" (world_of full_files)).
  - left. discriminate.
  - reflexivity.
  - reflexivity.
Defined.
